(** * The vCenter console of SYS-350: confirmation protocol of [5.2Menu.py]

    A shallow embedding of the menu handlers of [src/5.2Menu.py]
    ([power_on_vm], [power_off_vm], [create_snapshot], [delete_vm],
    [reconfigure_vm], [rename_vm] and the loop of [main]) together with the
    Python string operations they rely on, followed by the properties of
    the confirmation protocol.

    Conventions of the model.
    - Text is 8-bit; [strip], [upper] and [lower] act on the ASCII range
      only (Python also folds and strips non-ASCII code points).
    - The operator is the list of lines still to be typed on standard input;
      [input] on an empty list raises [EOFError], as Python does at end of
      file.
    - vCenter is an oracle that may answer according to everything observed
      so far: the inventory returned by a search, whether a task call
      raises, the wall clock.  A VM handle is read as a snapshot of the
      two properties the handlers look at, [name] and [powerState].
    - Every handler returns the events it emitted, in order: what it
      printed, what it asked and was answered, what the inventory search
      returned, and every call made on a VM handle with its outcome. *)

From Stdlib Require Import String Ascii List ZArith Bool Lia DecimalString.
Import ListNotations.
Local Open Scope list_scope.
Local Open Scope string_scope.

(** ** Python strings *)

Module PyStr.

(** The line feed written [\n] in the Python literals. *)
Definition nl : string := String (ascii_of_nat 10) EmptyString.

(** [str.isspace] on the ASCII range: TAB, LF, VT, FF, CR, FS, GS, RS, US
    and the space. *)
Definition is_space (c : ascii) : bool :=
  let n := nat_of_ascii c in
  ((9 <=? n) && (n <=? 13) || (28 <=? n) && (n <=? 32))%nat.

Fixpoint lstrip (s : string) : string :=
  match s with
  | EmptyString => EmptyString
  | String c s' => if is_space c then lstrip s' else s
  end.

Fixpoint rstrip (s : string) : string :=
  match s with
  | EmptyString => EmptyString
  | String c s' =>
      match rstrip s' with
      | EmptyString => if is_space c then EmptyString else String c EmptyString
      | r => String c r
      end
  end.

(** [s.strip()] *)
Definition strip (s : string) : string := rstrip (lstrip s).

Definition upper_char (c : ascii) : ascii :=
  let n := nat_of_ascii c in
  if ((97 <=? n) && (n <=? 122))%nat then ascii_of_nat (n - 32) else c.

Definition lower_char (c : ascii) : ascii :=
  let n := nat_of_ascii c in
  if ((65 <=? n) && (n <=? 90))%nat then ascii_of_nat (n + 32) else c.

Fixpoint map_chars (f : ascii -> ascii) (s : string) : string :=
  match s with
  | EmptyString => EmptyString
  | String c s' => String (f c) (map_chars f s')
  end.

(** [s.upper()] and [s.lower()] *)
Definition upper : string -> string := map_chars upper_char.
Definition lower : string -> string := map_chars lower_char.

(** [sub in s] *)
Fixpoint contains (sub s : string) : bool :=
  prefix sub s ||
  match s with
  | EmptyString => false
  | String _ s' => contains sub s'
  end.

(** Truthiness of a string: [if s:] *)
Definition truthy (s : string) : bool :=
  match s with EmptyString => false | _ => true end.

Definition digit_of (c : ascii) : option Z :=
  let n := nat_of_ascii c in
  if ((48 <=? n) && (n <=? 57))%nat then Some (Z.of_nat (n - 48)) else None.

(** Digits after the first one; a single underscore may separate two
    digits. *)
Fixpoint int_digits (acc : Z) (s : string) : option Z :=
  match s with
  | EmptyString => Some acc
  | String c s' =>
      match digit_of c with
      | Some d => int_digits (10 * acc + d) s'
      | None =>
          if Ascii.eqb c "_" then
            match s' with
            | String c' s'' =>
                match digit_of c' with
                | Some d => int_digits (10 * acc + d) s''
                | None => None
                end
            | EmptyString => None
            end
          else None
      end
  end.

Definition int_literal (s : string) : option Z :=
  match s with
  | String c s' =>
      match digit_of c with
      | Some d => int_digits d s'
      | None => None
      end
  | EmptyString => None
  end.

(** [int(s)] in base 10: surrounding whitespace is dropped, one sign is
    allowed; [None] stands for [ValueError].  (The length limit that
    recent interpreters put on decimal literals is left out.) *)
Definition int (s : string) : option Z :=
  match strip s with
  | String c r =>
      if Ascii.eqb c "+" then int_literal r
      else if Ascii.eqb c "-" then option_map Z.opp (int_literal r)
      else int_literal (String c r)
  | EmptyString => None
  end.

(** [f"{s:<n}"] *)
Definition ljust (n : nat) (s : string) : string :=
  s ++ string_of_list_ascii (repeat " "%char (n - String.length s)).

(** ["=" * n] *)
Definition times (n : nat) (c : ascii) : string :=
  string_of_list_ascii (repeat c n).

End PyStr.
Import PyStr.

(** ** The remote objects *)

(** [vim.VirtualMachinePowerState] *)
Inductive PowerState := poweredOn | poweredOff | suspended.

Definition PowerState_eqb (a b : PowerState) : bool :=
  match a, b with
  | poweredOn, poweredOn | poweredOff, poweredOff | suspended, suspended => true
  | _, _ => false
  end.

(** What a handler reads of a [vim.VirtualMachine]: [vm.name] and
    [vm.runtime.powerState]. *)
Record VM := { name : string; powerState : PowerState }.

(** [vim.vm.ConfigSpec()]: a field is [None] until it is assigned. *)
Record ConfigSpec := { numCPUs : option Z; memoryMB : option Z }.

(** The mutating methods called on a VM handle (the Task Invoker). *)
Inductive Operation :=
| PowerOn
| PowerOff
| CreateSnapshot (snap_name description : string) (memory quiesce : bool)
| Destroy_Task
| Reconfigure (spec : ConfigSpec)
| Rename (newName : string).

(** ** Events, exceptions and the handler monad *)

Inductive event :=
| Print (line : string)                 (* print(line) *)
| Input (prompt answer : string)        (* input(prompt) returned answer *)
| EOF (prompt : string)                 (* input(prompt) met end of file *)
| Search (found : list VM)              (* the inventory a search returned *)
| Call (vm : VM) (op : Operation) (raised : option string)
| Sleep (seconds : Z)                   (* time.sleep(seconds) *)
| Disconnected.                         (* Disconnect(si) *)

Inductive exn :=
| EOFError
| ValueError (msg : string)
| Fault (detail : string).              (* raised by a remote call *)

(** [str(e)] *)
Definition str_exn (e : exn) : string :=
  match e with
  | EOFError => "EOF when reading a line"
  | ValueError msg => msg
  | Fault detail => detail
  end.

(** How a block of statements ends: it falls through with a value, raises,
    executes [return], or (for the [while] loops only) exhausts the fuel of
    the model. *)
Inductive result (A : Type) :=
| Ok (a : A)
| Raise (e : exn)
| Returned
| OutOfFuel.
Arguments Ok {A} a.
Arguments Raise {A} e.
Arguments Returned {A}.
Arguments OutOfFuel {A}.

(** The vCenter session [si] and the clock, as oracles over the history. *)
Record Env := {
  view : list event -> list VM;
  task : list event -> VM -> Operation -> option string;
  strftime : list event -> string;
  about : string;
  userName : string;
  ipAddress : string;
  fmt_row : VM -> string
}.

(** A computation reads the history and the pending input lines, and
    yields its result, the events it emitted and the lines left. *)
Definition run (A : Type) : Type := (result A * list event * list string)%type.
Definition M (A : Type) : Type := list event -> list string -> run A.

Definition outcome {A} (x : run A) : result A := fst (fst x).
Definition trace {A} (x : run A) : list event := snd (fst x).
Definition unread {A} (x : run A) : list string := snd x.

(** The run [x], told after the events [d] have happened. *)
Definition after {A} (d : list event) (x : run A) : run A :=
  match x with
  | (r, d', stdin') => (r, (d ++ d')%list, stdin')
  end.

Definition ret {A} (a : A) : M A := fun _ stdin => (Ok a, [], stdin).

Definition bind {A B} (m : M A) (f : A -> M B) : M B :=
  fun h stdin =>
    match m h stdin with
    | (Ok a, d1, stdin1) => after d1 (f a (h ++ d1)%list stdin1)
    | (Raise e, d1, stdin1) => (Raise e, d1, stdin1)
    | (Returned, d1, stdin1) => (Returned, d1, stdin1)
    | (OutOfFuel, d1, stdin1) => (OutOfFuel, d1, stdin1)
    end.

Declare Scope py_scope.
Delimit Scope py_scope with py.
Notation "x <- m ;; k" := (bind m (fun x => k))
  (at level 61, m at next level, right associativity) : py_scope.
Notation "m ;; k" := (bind m (fun _ => k))
  (at level 61, right associativity) : py_scope.
Local Open Scope py_scope.

Definition raise {A} (e : exn) : M A := fun _ stdin => (Raise e, [], stdin).

(** [return] *)
Definition return_ {A} : M A := fun _ stdin => (Returned, [], stdin).

Definition out_of_fuel {A} : M A := fun _ stdin => (OutOfFuel, [], stdin).

(** [def f(...): body]: a [return] inside the body ends the call. *)
Definition finish (x : run unit) : run unit :=
  match x with
  | (Returned, d, stdin1) => (Ok tt, d, stdin1)
  | other => other
  end.

Definition def (body : M unit) : M unit :=
  fun h stdin => finish (body h stdin).

(** [if b: body] *)
Definition when (b : bool) (body : M unit) : M unit :=
  if b then body else ret tt.

Definition print (s : string) : M unit :=
  fun _ stdin => (Ok tt, [Print s], stdin).

Definition input (prompt : string) : M string :=
  fun _ stdin =>
    match stdin with
    | [] => (Raise EOFError, [EOF prompt], [])
    | a :: rest => (Ok a, [Input prompt a], rest)
    end.

Definition sleep (n : Z) : M unit :=
  fun _ stdin => (Ok tt, [Sleep n], stdin).

(** A method call on a VM handle; it returns a task handle (ignored by
    every caller) or raises. *)
Definition invoke (si : Env) (vm : VM) (op : Operation) : M unit :=
  fun h stdin =>
    match task si h vm op with
    | None => (Ok tt, [Call vm op None], stdin)
    | Some e => (Raise (Fault e), [Call vm op (Some e)], stdin)
    end.

(** [time.strftime('%Y%m%d-%H%M%S')] *)
Definition time_strftime (si : Env) : M string :=
  fun h stdin => (Ok (strftime si h), [], stdin).

(** [Disconnect(si)] *)
Definition Disconnect (si : Env) : M unit :=
  fun _ stdin => (Ok tt, [Disconnected], stdin).

(** [try: body  except <catches> as e: handler e] *)
Definition try_except {A} (body : M A) (catches : exn -> bool)
    (handler : exn -> M A) : M A :=
  fun h stdin =>
    match body h stdin with
    | (Raise e, d1, stdin1) =>
        if catches e then after d1 (handler e (h ++ d1)%list stdin1)
        else (Raise e, d1, stdin1)
    | other => other
    end.

(** [except Exception] catches the three exceptions of the model;
    [except ValueError] only the second. *)
Definition Exception (e : exn) : bool := true.
Definition is_ValueError (e : exn) : bool :=
  match e with ValueError _ => true | _ => false end.

(** [for x in l: body x] *)
Fixpoint for_each {A} (l : list A) (body : A -> M unit) : M unit :=
  match l with
  | [] => ret tt
  | x :: l' => body x ;; for_each l' body
  end.

(** [int(s)] as a computation. *)
Definition int_of (s : string) : M Z :=
  match int s with
  | Some z => ret z
  | None =>
      raise (ValueError ("invalid literal for int() with base 10: '" ++ s ++ "'"))
  end.

(** ** The functions of [5.2Menu.py] *)

(** [get_session_info(si, vcenter_host)] *)
Definition get_session_info (si : Env) (vcenter_host : string) : M unit :=
  def (
    print (nl ++ "=== Current Session Information ===") ;;
    print ("DOMAIN/Username: " ++ userName si) ;;
    print ("vCenter Server: " ++ vcenter_host) ;;
    print ("Source IP Address: " ++ ipAddress si) ;;
    print (times 40 "=")).

(** The name test of the list comprehensions:
    [name_filter.lower() in vm.name.lower()]. *)
Definition matches (name_filter : string) (vm : VM) : bool :=
  contains (lower name_filter) (lower (name vm)).

(** [search_vms(si, name_filter=None)] *)
Definition search_vms (si : Env) (name_filter : option string) : M (list VM) :=
  fun h stdin =>
    let vms := view si h in
    let vms :=
      match name_filter with
      | Some f => if truthy f then filter (matches f) vms else vms
      | None => vms
      end in
    (Ok vms, [Search vms], stdin).

(** [not l] for a list *)
Definition is_empty {A} (l : list A) : bool :=
  match l with [] => true | _ => false end.

(** [display_vm_info(vms)]; the row layout is [fmt_row]. *)
Definition display_vm_info (si : Env) (vms : list VM) : M unit :=
  def (
    when (is_empty vms) (
      print (nl ++ "No VMs found!") ;;
      return_) ;;
    print (nl ++ ljust 30 "VM Name" ++ " " ++ ljust 15 "Power State" ++ " "
             ++ ljust 8 "CPUs" ++ " " ++ ljust 12 "Memory (GB)" ++ " "
             ++ ljust 15 "IP Address") ;;
    print (times 90 "=") ;;
    for_each vms (fun vm => print (fmt_row si vm))).

(** [vmmenu()] *)
Definition vmmenu : M unit :=
  def (
    print (nl ++ "[1] Power on VM") ;;
    print "[2] Power Off VM" ;;
    print "[3] Take a Snapshot" ;;
    print "[4] Delete a VM" ;;
    print "[5] Reconfigure a VM" ;;
    print "[6] Rename a VM" ;;
    print "[0] Exit the VM Actions.").

(** The body of the [for vm in target_vms] loop of [power_on_vm]. *)
Definition power_on_each (si : Env) (vm : VM) : M unit :=
  if PowerState_eqb (powerState vm) poweredOn then
    print (name vm ++ " is already powered on, skipping!")
  else
    print (name vm ++ " is not powered on, powering on now!") ;;
    try_except
      (invoke si vm PowerOn ;;
       sleep 2 ;;
       print (name vm ++ " is now powered on!"))
      Exception
      (fun e => print ("Failed to power on " ++ name vm ++ ": " ++ str_exn e)).

(** The body of the [for vm in target_vms] loop of [power_off_vm]. *)
Definition power_off_each (si : Env) (vm : VM) : M unit :=
  if PowerState_eqb (powerState vm) poweredOff then
    print (name vm ++ " is already powered off, skipping!")
  else
    print (name vm ++ " is powered on, powering off now!") ;;
    try_except
      (invoke si vm PowerOff ;;
       sleep 2 ;;
       print (name vm ++ " is now powered off!"))
      Exception
      (fun e => print ("Failed to power off " ++ name vm ++ ": " ++ str_exn e)).

(** [power_on_vm(si)] *)
Definition power_on_vm (si : Env) : M unit :=
  def (
    print (nl ++ "=== Power On VM(s) ===") ;;
    vms <- search_vms si None ;;
    print (nl ++ "VMs managed by vCenter:") ;;
    for_each vms (fun vm => print ("  - " ++ name vm)) ;;
    a <- input (nl ++ "Enter VM name to power on (leave empty for ALL): ") ;;
    let vm_name := strip a in
    target_vms <-
      (if truthy vm_name then
         let target_vms := filter (matches vm_name) vms in
         when (is_empty target_vms) (
           print ("No VM found matching '" ++ vm_name ++ "'") ;;
           return_) ;;
         ret target_vms
       else
         c <- input "Are you sure you want to power on ALL VMs? (Y/N): " ;;
         let confirm := upper (strip c) in
         when (negb (confirm =? "Y")) (
           print "Cancelled." ;;
           return_) ;;
         ret vms) ;;
    for_each target_vms (power_on_each si)).

(** [power_off_vm(si)] *)
Definition power_off_vm (si : Env) : M unit :=
  def (
    print (nl ++ "=== Power Off VM(s) ===") ;;
    vms <- search_vms si None ;;
    print (nl ++ "VMs managed by vCenter:") ;;
    for_each vms (fun vm => print ("  - " ++ name vm)) ;;
    a <- input (nl ++ "Enter VM name to power off (leave empty for ALL): ") ;;
    let vm_name := strip a in
    target_vms <-
      (if truthy vm_name then
         let target_vms := filter (matches vm_name) vms in
         when (is_empty target_vms) (
           print ("No VM found matching '" ++ vm_name ++ "'") ;;
           return_) ;;
         ret target_vms
       else
         c <- input "Are you sure you want to power off ALL VMs? (Y/N): " ;;
         let confirm := upper (strip c) in
         when (negb (confirm =? "Y")) (
           print "Cancelled." ;;
           return_) ;;
         ret vms) ;;
    for_each target_vms (power_off_each si)).

(** [create_snapshot(si)] *)
Definition create_snapshot (si : Env) : M unit :=
  def (
    print (nl ++ "=== Take a Snapshot ===") ;;
    vms <- search_vms si None ;;
    print (nl ++ "VMs managed by vCenter:") ;;
    for_each vms (fun vm => print ("  - " ++ name vm)) ;;
    a <- input (nl ++ "Enter VM name to snapshot: ") ;;
    let vm_name := strip a in
    let target_vms := filter (matches vm_name) vms in
    match target_vms with
    | [] =>
        print ("No VM found matching '" ++ vm_name ++ "'") ;;
        return_
    | vm :: _ =>
        c <- input ("Create snapshot of '" ++ name vm ++ "'? (Y/N): ") ;;
        let confirm := upper (strip c) in
        when (negb (confirm =? "Y")) (
          print "Cancelled." ;;
          return_) ;;
        n <- input "Enter snapshot name: " ;;
        let snapshot_name := strip n in
        snapshot_name <-
          (if negb (truthy snapshot_name) then
             stamp <- time_strftime si ;;
             ret ("Snapshot-" ++ stamp)
           else ret snapshot_name) ;;
        d <- input "Enter snapshot description (optional): " ;;
        let snapshot_description := strip d in
        print (nl ++ "Creating snapshot '" ++ snapshot_name ++ "' for "
                 ++ name vm ++ "...") ;;
        try_except
          (invoke si vm (CreateSnapshot snapshot_name snapshot_description
                           false false) ;;
           print ("Snapshot '" ++ snapshot_name ++ "' created successfully!"))
          Exception
          (fun e => print ("Failed to create snapshot: " ++ str_exn e))
    end).

(** [delete_vm(si)]; [warn] and [tick] are the two non-ASCII signs of the
    messages, in UTF-8. *)
Definition warn : string :=
  string_of_list_ascii (map ascii_of_nat [226; 154; 160; 239; 184; 143]%nat).
Definition tick : string :=
  string_of_list_ascii (map ascii_of_nat [226; 156; 147]%nat).

Definition delete_vm (si : Env) : M unit :=
  def (
    print (nl ++ "=== Delete a VM ===") ;;
    vms <- search_vms si None ;;
    print (nl ++ "VMs managed by vCenter:") ;;
    for_each vms (fun vm => print ("  - " ++ name vm)) ;;
    a <- input (nl ++ "Enter VM name to DELETE: ") ;;
    let vm_name := strip a in
    let target_vms := filter (matches vm_name) vms in
    match target_vms with
    | [] =>
        print ("No VM found matching '" ++ vm_name ++ "'") ;;
        return_
    | vm :: _ =>
        print (nl ++ warn ++ "  WARNING: You are about to DELETE '" ++ name vm
                 ++ "' permanently!") ;;
        c1 <- input ("Are you ABSOLUTELY SURE you want to delete '" ++ name vm
                       ++ "'? (YES/NO): ") ;;
        let confirm1 := upper (strip c1) in
        when (negb (confirm1 =? "YES")) (
          print "Cancelled." ;;
          return_) ;;
        c2 <- input ("Type the VM name '" ++ name vm
                       ++ "' to confirm deletion: ") ;;
        let confirm2 := strip c2 in
        when (negb (confirm2 =? name vm)) (
          print "VM name does not match. Deletion cancelled." ;;
          return_) ;;
        when (negb (PowerState_eqb (powerState vm) poweredOff)) (
          print (nl ++ name vm ++ " must be powered off before deletion.") ;;
          p <- input "Power off now? (Y/N): " ;;
          let power_off := upper (strip p) in
          if power_off =? "Y" then
            try_except
              (invoke si vm PowerOff ;;
               sleep 2 ;;
               print (name vm ++ " powered off."))
              Exception
              (fun e =>
                 print ("Failed to power off: " ++ str_exn e) ;;
                 return_)
          else
            print "Deletion cancelled." ;;
            return_) ;;
        print (nl ++ "Deleting " ++ name vm ++ " from disk...") ;;
        try_except
          (invoke si vm Destroy_Task ;;
           print (tick ++ " " ++ name vm ++ " has been deleted successfully!"))
          Exception
          (fun e => print ("Failed to delete VM: " ++ str_exn e))
    end).

(** [if z:] for an optional integer: [None] and [0] are false. *)
Definition truthy_int (z : option Z) : bool :=
  match z with
  | Some z => negb (z =? 0)%Z
  | None => false
  end.

(** [f"{z}"] for an optional integer *)
Definition str_int (z : option Z) : string :=
  match z with
  | Some z => NilZero.string_of_int (Z.to_int z)
  | None => "None"
  end.

(** [reconfigure_vm(si)] *)
Definition reconfigure_vm (si : Env) : M unit :=
  def (
    print (nl ++ "=== Reconfigure a VM ===") ;;
    vms <- search_vms si None ;;
    print (nl ++ "VMs managed by vCenter:") ;;
    for_each vms (fun vm => print ("  - " ++ name vm)) ;;
    a <- input (nl ++ "Enter VM name to reconfigure: ") ;;
    let vm_name := strip a in
    let target_vms := filter (matches vm_name) vms in
    match target_vms with
    | [] =>
        print ("No VM found matching '" ++ vm_name ++ "'") ;;
        return_
    | vm :: _ =>
        when (negb (PowerState_eqb (powerState vm) poweredOff)) (
          print (nl ++ warn ++ "  " ++ name vm
                   ++ " must be powered off to reconfigure hardware!") ;;
          print "Please power off the VM first." ;;
          return_) ;;
        c <- input ("Reconfigure '" ++ name vm ++ "'? (Y/N): ") ;;
        let confirm := upper (strip c) in
        when (negb (confirm =? "Y")) (
          print "Cancelled." ;;
          return_) ;;
        cc <- input "Change CPU count? (Y/N): " ;;
        let change_cpu := upper (strip cc) in
        new_cpu <-
          (if change_cpu =? "Y" then
             try_except
               (x <- input "Enter new CPU count: " ;;
                z <- int_of (strip x) ;;
                ret (Some z))
               is_ValueError
               (fun _ =>
                  print "Invalid CPU count" ;;
                  return_)
           else ret None) ;;
        cm <- input "Change Memory? (Y/N): " ;;
        let change_mem := upper (strip cm) in
        new_memory_gb <-
          (if change_mem =? "Y" then
             try_except
               (x <- input "Enter new Memory in GB: " ;;
                z <- int_of (strip x) ;;
                ret (Some z))
               is_ValueError
               (fun _ =>
                  print "Invalid memory size" ;;
                  return_)
           else ret None) ;;
        let config_spec :=
          {| numCPUs := if truthy_int new_cpu then new_cpu else None;
             memoryMB := if truthy_int new_memory_gb
                         then option_map (fun g => g * 1024)%Z new_memory_gb
                         else None |} in
        print (nl ++ "Reconfiguring " ++ name vm ++ "...") ;;
        try_except
          (invoke si vm (Reconfigure config_spec) ;;
           print (tick ++ " " ++ name vm ++ " has been reconfigured!") ;;
           when (truthy_int new_cpu) (
             print ("  - CPUs: " ++ str_int new_cpu)) ;;
           when (truthy_int new_memory_gb) (
             print ("  - Memory: " ++ str_int new_memory_gb ++ " GB")))
          Exception
          (fun e => print ("Failed to reconfigure VM: " ++ str_exn e))
    end).

(** [rename_vm(si)] *)
Definition rename_vm (si : Env) : M unit :=
  def (
    print (nl ++ "=== Rename a VM ===") ;;
    vms <- search_vms si None ;;
    print (nl ++ "VMs managed by vCenter:") ;;
    for_each vms (fun vm => print ("  - " ++ name vm)) ;;
    a <- input (nl ++ "Enter VM name to rename: ") ;;
    let vm_name := strip a in
    let target_vms := filter (matches vm_name) vms in
    match target_vms with
    | [] =>
        print ("No VM found matching '" ++ vm_name ++ "'") ;;
        return_
    | vm :: _ =>
        c <- input ("Rename '" ++ name vm ++ "'? (Y/N): ") ;;
        let confirm := upper (strip c) in
        when (negb (confirm =? "Y")) (
          print "Cancelled." ;;
          return_) ;;
        n <- input "Enter new VM name: " ;;
        let new_name := strip n in
        when (negb (truthy new_name)) (
          print "Name cannot be empty" ;;
          return_) ;;
        print (nl ++ "Renaming " ++ name vm ++ " to " ++ new_name ++ "...") ;;
        try_except
          (invoke si vm (Rename new_name) ;;
           print (tick ++ " VM renamed successfully to '" ++ new_name ++ "'!"))
          Exception
          (fun e => print ("Failed to rename VM: " ++ str_exn e))
    end).

(** The inner loop of [main]: [while vmoption != 0: ...]. *)
Fixpoint vm_actions (fuel : nat) (si : Env) (vmoption : Z) : M unit :=
  if (vmoption =? 0)%Z then ret tt
  else
    match fuel with
    | O => out_of_fuel
    | S fuel' =>
        (if (vmoption =? 1)%Z then power_on_vm si
         else if (vmoption =? 2)%Z then power_off_vm si
         else if (vmoption =? 3)%Z then create_snapshot si
         else if (vmoption =? 4)%Z then delete_vm si
         else if (vmoption =? 5)%Z then reconfigure_vm si
         else if (vmoption =? 6)%Z then rename_vm si
         else ret tt) ;;
        vmmenu ;;
        o <- input "Enter your option: " ;;
        vmoption <- int_of o ;;
        vm_actions fuel' si vmoption
    end.

(** The main menu loop of [main]: [while True: ...]; the branch of option 0
    is the one that ends with [break]. *)
Fixpoint main_loop (fuel : nat) (si : Env) (vcenter_host : string) : M unit :=
  match fuel with
  | O => out_of_fuel
  | S fuel' =>
      print (nl ++ "[1] VCenter Info") ;;
      print "[2] Session Details" ;;
      print "[3] VM Details" ;;
      print "[4] Perform VM Actions" ;;
      print "[0] Exit the program." ;;
      o <- input "Enter your option: " ;;
      option <- int_of o ;;
      if (option =? 1)%Z then
        print "VCenter Info Option Selected." ;;
        print (about si) ;;
        main_loop fuel' si vcenter_host
      else if (option =? 2)%Z then
        print "Session Details Selected." ;;
        get_session_info si vcenter_host ;;
        main_loop fuel' si vcenter_host
      else if (option =? 3)%Z then
        print "VM Details Selected." ;;
        f <- input "Enter VM name to search (leave empty for all): " ;;
        let name_filter := strip f in
        vms <- (if truthy name_filter then search_vms si (Some name_filter)
                else search_vms si None) ;;
        display_vm_info si vms ;;
        main_loop fuel' si vcenter_host
      else if (option =? 4)%Z then
        print "" ;;
        vmmenu ;;
        o <- input "Enter your option: " ;;
        vmoption <- int_of o ;;
        vm_actions fuel' si vmoption ;;
        main_loop fuel' si vcenter_host
      else if (option =? 0)%Z then
        print "Exiting program..." ;;
        Disconnect si ;;
        print "Goodbye!"
      else
        print "Invalid option. Please try again." ;;
        main_loop fuel' si vcenter_host
  end.

(** [main()], from the point where [SmartConnect] has returned the session
    [si]: reading the configuration file, asking for the password and
    connecting are not part of the model. *)
Definition main (fuel : nat) (si : Env) (vcenter_host : string) : M unit :=
  def (
    print (about si) ;;
    get_session_info si vcenter_host ;;
    main_loop fuel si vcenter_host).

(** ** The operation kinds of the confirmation protocol *)

Inductive OperationKind :=
| OpPowerOn | OpPowerOff | OpSnapshot | OpDelete | OpReconfigure | OpRename.

(** The handler the VM Actions menu runs for each kind (options 1 to 6). *)
Definition handler (k : OperationKind) : Env -> M unit :=
  match k with
  | OpPowerOn => power_on_vm
  | OpPowerOff => power_off_vm
  | OpSnapshot => create_snapshot
  | OpDelete => delete_vm
  | OpReconfigure => reconfigure_vm
  | OpRename => rename_vm
  end.

(** ** Projections of a trace *)

(** The Task Invoker calls of a trace, in order. *)
Fixpoint calls (d : list event) : list (VM * Operation) :=
  match d with
  | [] => []
  | Call vm op _ :: d' => (vm, op) :: calls d'
  | _ :: d' => calls d'
  end.

(** The questions asked and the answers typed, in order. *)
Fixpoint asked (d : list event) : list (string * string) :=
  match d with
  | [] => []
  | Input p a :: d' => (p, a) :: asked d'
  | _ :: d' => asked d'
  end.

(** The inventories returned by the searches, in order. *)
Fixpoint searched (d : list event) : list (list VM) :=
  match d with
  | [] => []
  | Search vms :: d' => vms :: searched d'
  | _ :: d' => searched d'
  end.

(** The lines printed, in order. *)
Fixpoint printed (d : list event) : list string :=
  match d with
  | [] => []
  | Print s :: d' => s :: printed d'
  | _ :: d' => printed d'
  end.

(** A session used in the examples: a fixed inventory, every task call
    succeeds unless [failing] names its VM. *)
Definition db01 : VM := {| name := "db01"; powerState := poweredOff |}.
Definition web01 : VM := {| name := "web01"; powerState := poweredOn |}.
Definition web02 : VM := {| name := "web02"; powerState := poweredOff |}.
Definition app1 : VM := {| name := "app1"; powerState := poweredOn |}.

Definition lab (failing : string -> bool) : Env :=
  {| view := fun _ => [db01; web01; web02; app1];
     task := fun _ vm _ => if failing (name vm) then Some "boom" else None;
     strftime := fun _ => "20240101-120000";
     about := "(vim.AboutInfo)";
     userName := "LAB\admin";
     ipAddress := "10.0.0.5";
     fmt_row := fun vm => ljust 30 (name vm) |}.

Definition calm : Env := lab (fun _ => false).
Definition faulty : Env := lab (fun _ => true).

(** ** Vocabulary of the properties *)

(** What [bind] does with the run of its first part. *)
Definition cont {A B} (x : run A) (k : A -> M B) (h : list event) : run B :=
  match x with
  | (Ok a, d, i) => after d (k a (h ++ d)%list i)
  | (Raise e, d, i) => (Raise e, d, i)
  | (Returned, d, i) => (Returned, d, i)
  | (OutOfFuel, d, i) => (OutOfFuel, d, i)
  end.

(** A computation that always falls through and reads no input. *)
Definition total (m : M unit) : Prop :=
  forall h i, outcome (m h i) = Ok tt /\ unread (m h i) = i.

(** The last event of a trace. *)
Definition ends_with (d : list event) (e : event) : Prop :=
  exists pre, d = (pre ++ [e])%list.





(** The end state a power operation aims at, and the line printed for a VM
    that is already there. *)
Definition desired_state (k : OperationKind) : PowerState :=
  match k with
  | OpPowerOff => poweredOff
  | _ => poweredOn
  end.

Definition power_call (k : OperationKind) : Operation :=
  match k with
  | OpPowerOff => PowerOff
  | _ => PowerOn
  end.

Definition skip_message (k : OperationKind) (vm : VM) : string :=
  match k with
  | OpPowerOff => name vm ++ " is already powered off, skipping!"
  | _ => name vm ++ " is already powered on, skipping!"
  end.

(** The line each handler prints when a call on [vm] raises with text
    [e]. *)
Definition failure_report (k : OperationKind) (op : Operation) (vm : VM)
    (e : string) : string :=
  match k with
  | OpPowerOn => "Failed to power on " ++ name vm ++ ": " ++ e
  | OpPowerOff => "Failed to power off " ++ name vm ++ ": " ++ e
  | OpSnapshot => "Failed to create snapshot: " ++ e
  | OpDelete =>
      match op with
      | PowerOff => "Failed to power off: " ++ e
      | _ => "Failed to delete VM: " ++ e
      end
  | OpReconfigure => "Failed to reconfigure VM: " ++ e
  | OpRename => "Failed to rename VM: " ++ e
  end.

(** Every call that raised is followed at once by its report. *)
Fixpoint reported (k : OperationKind) (d : list event) : Prop :=
  match d with
  | [] => True
  | Call vm op (Some e) :: d' =>
      match d' with
      | Print line :: _ => line = failure_report k op vm e
      | _ => False
      end /\ reported k d'
  | _ :: d' => reported k d'
  end.

(** The loop body of each power handler. *)
Definition power_each (k : OperationKind) : Env -> VM -> M unit :=
  match k with
  | OpPowerOff => power_off_each
  | _ => power_on_each
  end.






(** The lines of the main menu. *)
Definition main_menu : list event :=
  [Print (nl ++ "[1] VCenter Info"); Print "[2] Session Details";
   Print "[3] VM Details"; Print "[4] Perform VM Actions";
   Print "[0] Exit the program."].

(** The lines printed by [vmmenu()]. *)
Definition vm_menu : list event :=
  [Print (nl ++ "[1] Power on VM"); Print "[2] Power Off VM";
   Print "[3] Take a Snapshot"; Print "[4] Delete a VM";
   Print "[5] Reconfigure a VM"; Print "[6] Rename a VM";
   Print "[0] Exit the VM Actions."].


(** * Properties *)
(** ** Running the handlers symbolically *)

Section After.
Context {A : Type}.

Lemma after_nil (x : run A) : after [] x = x.
Proof. destruct x as [[r d] i]; reflexivity. Qed.

Lemma after_after d1 d2 (x : run A) :
  after d1 (after d2 x) = after (d1 ++ d2) x.
Proof. destruct x as [[r d] i]; cbn. now rewrite app_assoc. Qed.

Lemma outcome_after d (x : run A) : outcome (after d x) = outcome x.
Proof. destruct x as [[r d'] i]; reflexivity. Qed.

Lemma trace_after d (x : run A) : trace (after d x) = (d ++ trace x)%list.
Proof. destruct x as [[r d'] i]; reflexivity. Qed.

Lemma unread_after d (x : run A) : unread (after d x) = unread x.
Proof. destruct x as [[r d'] i]; reflexivity. Qed.
End After.

Section Runs.
Context {A B : Type}.

Lemma bind_cont (m : M A) (k : A -> M B) h i :
  bind m k h i = cont (m h i) k h.
Proof. reflexivity. Qed.

Lemma cont_after d (x : run A) (k : A -> M B) h :
  cont (after d x) k h = after d (cont x k (h ++ d)%list).
Proof.
  destruct x as [[[a|e| |] d'] i]; try reflexivity.
  cbn [after cont]. now rewrite after_after, app_assoc.
Qed.

Lemma bind_ret (a : A) (k : A -> M B) h i : bind (ret a) k h i = k a h i.
Proof. unfold bind, ret. now rewrite app_nil_r, after_nil. Qed.

Lemma bind_return (k : A -> M B) h i :
  bind return_ k h i = (Returned, [], i).
Proof. reflexivity. Qed.

Lemma bind_raise e (k : A -> M B) h i :
  bind (raise e) k h i = (Raise e, [], i).
Proof. reflexivity. Qed.

Lemma bind_out_of_fuel (k : A -> M B) h i :
  bind out_of_fuel k h i = (OutOfFuel, [], i).
Proof. reflexivity. Qed.
End Runs.

Lemma bind_assoc {A B C} (m : M A) (f : A -> M B) (g : B -> M C) h i :
  bind (bind m f) g h i = bind m (fun x => bind (f x) g) h i.
Proof.
  rewrite !bind_cont. destruct (m h i) as [[[a|e| |] d] i1]; try reflexivity.
  cbn [cont]. now rewrite cont_after, bind_cont.
Qed.

Lemma bind_print {B : Type} s (k : unit -> M B) h i :
  bind (print s) k h i = after [Print s] (k tt (h ++ [Print s])%list i).
Proof. reflexivity. Qed.

Lemma bind_sleep {B : Type} n (k : unit -> M B) h i :
  bind (sleep n) k h i = after [Sleep n] (k tt (h ++ [Sleep n])%list i).
Proof. reflexivity. Qed.

Lemma bind_Disconnect {B : Type} si (k : unit -> M B) h i :
  bind (Disconnect si) k h i
  = after [Disconnected] (k tt (h ++ [Disconnected])%list i).
Proof. reflexivity. Qed.

Lemma bind_prints {B : Type} {X} (f : X -> string) l (k : unit -> M B) h i :
  bind (for_each l (fun x => print (f x))) k h i
  = after (map (fun x => Print (f x)) l)
      (k tt (h ++ map (fun x => Print (f x)) l)%list i).
Proof.
  revert h. induction l as [|x l IH]; intros h.
  - cbn [for_each map]. now rewrite bind_ret, app_nil_r, after_nil.
  - cbn [for_each map]. rewrite bind_assoc, bind_print, IH, after_after.
    now rewrite <- app_assoc.
Qed.

Lemma bind_when_true {B : Type} (m : M unit) (k : unit -> M B) h i : bind (when true m) k h i = bind m k h i.
Proof. reflexivity. Qed.

Lemma bind_when_false {B : Type} (m : M unit) (k : unit -> M B) h i : bind (when false m) k h i = k tt h i.
Proof. unfold when. apply bind_ret. Qed.


Lemma bind_input {B : Type} p (k : string -> M B) h a i :
  bind (input p) k h (a :: i)
  = after [Input p a] (k a (h ++ [Input p a])%list i).
Proof. reflexivity. Qed.

Lemma bind_input_eof {B : Type} p (k : string -> M B) h :
  bind (input p) k h [] = (Raise EOFError, [EOF p], []).
Proof. reflexivity. Qed.

Lemma bind_search {B : Type} si (k : list VM -> M B) h i :
  bind (search_vms si None) k h i
  = after [Search (view si h)]
      (k (view si h) (h ++ [Search (view si h)])%list i).
Proof. reflexivity. Qed.

Lemma bind_strftime {B : Type} si (k : string -> M B) h i :
  bind (time_strftime si) k h i = k (strftime si h) h i.
Proof. unfold bind, time_strftime. now rewrite app_nil_r, after_nil. Qed.

Lemma bind_int_of {B : Type} s (k : Z -> M B) h i :
  bind (int_of s) k h i
  = match int s with
    | Some z => k z h i
    | None =>
        (Raise (ValueError ("invalid literal for int() with base 10: '"
                              ++ s ++ "'")), [], i)
    end.
Proof. unfold int_of. destruct (int s); [apply bind_ret | reflexivity]. Qed.

(** [try] around a body that starts with a step that cannot raise. *)
Lemma try_print {A : Type} s (k : unit -> M A) c hd h i :
  try_except (bind (print s) k) c hd h i
  = after [Print s] (try_except (k tt) c hd (h ++ [Print s])%list i).
Proof.
  unfold try_except. rewrite bind_print.
  destruct (k tt (h ++ [Print s])%list i) as [[[a|e| |] d] i1]; cbn; try reflexivity.
  destruct (c e); [|reflexivity]. now rewrite after_after, <- app_assoc.
Qed.

Lemma try_sleep {A : Type} n (k : unit -> M A) c hd h i :
  try_except (bind (sleep n) k) c hd h i
  = after [Sleep n] (try_except (k tt) c hd (h ++ [Sleep n])%list i).
Proof.
  unfold try_except. rewrite bind_sleep.
  destruct (k tt (h ++ [Sleep n])%list i) as [[[a|e| |] d] i1]; cbn; try reflexivity.
  destruct (c e); [|reflexivity]. now rewrite after_after, <- app_assoc.
Qed.

Lemma try_input {A : Type} p (k : string -> M A) c hd h a i :
  try_except (bind (input p) k) c hd h (a :: i)
  = after [Input p a] (try_except (k a) c hd (h ++ [Input p a])%list i).
Proof.
  unfold try_except. rewrite bind_input.
  destruct (k a (h ++ [Input p a])%list i) as [[[x|e| |] d] i1]; cbn; try reflexivity.
  destruct (c e); [|reflexivity]. now rewrite after_after, <- app_assoc.
Qed.

(** [EOFError] is not a [ValueError]. *)
Lemma try_input_eof {A : Type} p (k : string -> M A) hd h :
  try_except (bind (input p) k) is_ValueError hd h []
  = (Raise EOFError, [EOF p], []).
Proof. reflexivity. Qed.

Lemma try_int_of {A : Type} s (k : Z -> M A) hd h i :
  try_except (bind (int_of s) k) is_ValueError hd h i
  = match int s with
    | Some z => try_except (k z) is_ValueError hd h i
    | None =>
        hd (ValueError ("invalid literal for int() with base 10: '"
                          ++ s ++ "'")) h i
    end.
Proof.
  unfold try_except. rewrite bind_int_of. destruct (int s); [reflexivity|].
  cbn. now rewrite app_nil_r, after_nil.
Qed.

Lemma try_ret {A : Type} (a : A) c hd h i : try_except (ret a) c hd h i = (Ok a, [], i).
Proof. reflexivity. Qed.

Lemma try_invoke {A : Type} si vm op (k : unit -> M A) hd h i :
  try_except (bind (invoke si vm op) k) Exception hd h i
  = match task si h vm op with
    | None =>
        after [Call vm op None]
          (try_except (k tt) Exception hd (h ++ [Call vm op None])%list i)
    | Some e =>
        after [Call vm op (Some e)]
          (hd (Fault e) (h ++ [Call vm op (Some e)])%list i)
    end.
Proof.
  unfold try_except, bind, invoke. destruct (task si h vm op) as [e|]; [reflexivity|].
  destruct (k tt (h ++ [Call vm op None])%list i) as [[[a|e| |] d] i1];
    cbn [after Exception]; try reflexivity.
  now rewrite after_after, <- app_assoc.
Qed.


Lemma try_when_true {A} (m : M unit) (k : unit -> M A) c hd h i :
  try_except (bind (when true m) k) c hd h i = try_except (bind m k) c hd h i.
Proof. reflexivity. Qed.

Lemma try_when_false {A} (m : M unit) (k : unit -> M A) c hd h i :
  try_except (bind (when false m) k) c hd h i = try_except (k tt) c hd h i.
Proof.
  unfold try_except. now rewrite bind_when_false.
Qed.

Lemma try_print_last s c hd h i :
  try_except (print s) c hd h i = (Ok tt, [Print s], i).
Proof. reflexivity. Qed.

Lemma run_print s h i : print s h i = (Ok tt, [Print s], i).
Proof. reflexivity. Qed.

Lemma run_ret {A} (a : A) h i : ret a h i = (Ok a, [], i).
Proof. reflexivity. Qed.

Lemma run_def body h i : def body h i = finish (body h i).
Proof. reflexivity. Qed.

Lemma finish_after d x : finish (after d x) = after d (finish x).
Proof. destruct x as [[[[]|e| |] d'] i]; reflexivity. Qed.

Lemma calls_app a b : calls (a ++ b) = (calls a ++ calls b)%list.
Proof. induction a as [|[] a IH]; cbn; congruence. Qed.

Lemma asked_app a b : asked (a ++ b) = (asked a ++ asked b)%list.
Proof. induction a as [|[] a IH]; cbn; congruence. Qed.

Lemma printed_app a b : printed (a ++ b) = (printed a ++ printed b)%list.
Proof. induction a as [|[] a IH]; cbn; congruence. Qed.

Lemma calls_prints {X} (f : X -> string) l :
  calls (map (fun x => Print (f x)) l) = [].
Proof. induction l; cbn; auto. Qed.

Lemma asked_prints {X} (f : X -> string) l :
  asked (map (fun x => Print (f x)) l) = [].
Proof. induction l; cbn; auto. Qed.

Lemma searched_app a b : searched (a ++ b) = (searched a ++ searched b)%list.
Proof. induction a as [|[] a IH]; cbn; congruence. Qed.

Lemma searched_prints {X} (f : X -> string) l :
  searched (map (fun x => Print (f x)) l) = [].
Proof. induction l; cbn; auto. Qed.

Lemma run_return {A} h i : @return_ A h i = (Returned, [], i).
Proof. reflexivity. Qed.

(** The history only feeds the oracles: once extended it is given a new
    name. *)
Ltac forget_history X :=
  match X with
  | context [(?h ++ ?d)%list] =>
      is_var h;
      let h' := fresh "h" in
      let E := fresh in
      remember (h ++ d)%list as h' eqn:E; clear E
  end.

(** One step of symbolic execution of the run on the left of
    [run = x -> _]; a test that is stuck is split in two. *)
Ltac step_bind m k h i :=
  lazymatch m with
  | bind ?m' ?f => rewrite (bind_assoc m' f k h i)
  | print ?s => rewrite (bind_print s k h i)
  | sleep ?n => rewrite (bind_sleep n k h i)
  | Disconnect ?si => rewrite (bind_Disconnect si k h i)
  | for_each ?l (fun x => print (@?f x)) => rewrite (bind_prints f l k h i)
  | input ?p =>
      lazymatch i with
      | _ :: _ => rewrite (bind_input p k h)
      | [] => rewrite (bind_input_eof p k h)
      | _ => destruct i
      end
  | search_vms ?si None => rewrite (bind_search si k h i)
  | time_strftime ?si => rewrite (bind_strftime si k h i)
  | int_of ?s => rewrite (bind_int_of s k h i); destruct (int s) eqn:?
  | ret ?a => rewrite (bind_ret a k h i)
  | return_ => rewrite (bind_return k h i)
  | when true ?b => rewrite (bind_when_true b k h i)
  | when false ?b => rewrite (bind_when_false b k h i)
  | when ?c _ => destruct c eqn:?
  | if ?c then _ else _ => destruct c eqn:?
  | match ?l with [] => _ | _ :: _ => _ end => destruct l eqn:?
  | try_except ?b ?c ?hd => rewrite (bind_cont (try_except b c hd) k h i)
  | def ?b => rewrite (bind_cont (def b) k h i)
  end.

Ltac step_try b c hd h i :=
  lazymatch b with
  | bind (print ?s) ?k => rewrite (try_print s k c hd h i)
  | bind (sleep ?n) ?k => rewrite (try_sleep n k c hd h i)
  | bind (input ?p) ?k =>
      lazymatch i with
      | _ :: _ => rewrite (try_input p k c hd h)
      | [] => rewrite (try_input_eof p k hd h)
      | _ => destruct i
      end
  | bind (int_of ?s) ?k => rewrite (try_int_of s k hd h i); destruct (int s) eqn:?
  | bind (invoke ?si ?vm ?op) ?k =>
      rewrite (try_invoke si vm op k hd h i); destruct (task si h vm op) eqn:?
  | bind (when true ?m) ?k => rewrite (try_when_true m k c hd h i)
  | bind (when false ?m) ?k => rewrite (try_when_false m k c hd h i)
  | bind (when ?t _) _ => destruct t eqn:?
  | when true ?m => change (when true m) with m
  | when false ?m => change (when false m) with (ret tt)
  | when ?t _ => destruct t eqn:?
  | print ?s => rewrite (try_print_last s c hd h i)
  | ret ?a => rewrite (try_ret a c hd h i)
  end.

Ltac step :=
  lazymatch goal with
  | |- ?X = _ -> _ =>
      first
        [ forget_history X
        | match X with
          | context [def ?b ?h ?i] => rewrite (run_def b h i)
          | context [bind ?m ?k ?h ?i] => step_bind m k h i
          | context [try_except ?b ?c ?hd ?h ?i] => step_try b c hd h i
          | context [finish (after ?d ?x)] => rewrite (finish_after d x)
          | context [cont (after ?d ?x) ?k ?h] => rewrite (cont_after d x k h)
          | context [print ?s ?h ?i] => rewrite (run_print s h i)
          | context [@return_ ?A ?h ?i] => rewrite (@run_return A h i)
          | context [ret ?a ?h ?i] => rewrite (run_ret a h i)
          | context [(if ?c then _ else _) _ _] => destruct c eqn:?
          | context [(match ?l with [] => _ | _ :: _ => _ end) _ _] =>
              destruct l eqn:?
          end
        | progress cbn [cont finish after app]
        | progress cbv beta zeta ]
  end.

Ltac exec := repeat step.

(** Start the symbolic execution of the run [X]: it is named, and the goal
    becomes [X = x -> _]. *)
Ltac run_of X :=
  let x := fresh "x" in
  let E := fresh "E" in
  remember X as x eqn:E; symmetry in E; revert E.


(** ** Reading a finished run *)

Lemma ends_with_one e : ends_with [e] e.
Proof. now exists []. Qed.

Lemma ends_with_cons x d e : ends_with d e -> ends_with (x :: d) e.
Proof. intros [pre ->]. now exists (x :: pre). Qed.

Lemma ends_with_app d1 d2 e : ends_with d2 e -> ends_with (d1 ++ d2) e.
Proof. intros [pre ->]. exists (d1 ++ pre)%list. now rewrite app_assoc. Qed.

Ltac last_event :=
  repeat first
    [ apply ends_with_one | apply ends_with_cons | apply ends_with_app ].

Lemma asked_listing {X} (f : X -> string) l d :
  asked (map (fun x => Print (f x)) l ++ d) = asked d.
Proof. now rewrite asked_app, asked_prints. Qed.

Lemma calls_listing {X} (f : X -> string) l d :
  calls (map (fun x => Print (f x)) l ++ d) = calls d.
Proof. now rewrite calls_app, calls_prints. Qed.

Lemma searched_listing {X} (f : X -> string) l d :
  searched (map (fun x => Print (f x)) l ++ d) = searched d.
Proof. now rewrite searched_app, searched_prints. Qed.

(** Push the projections through a trace in normal form. *)
Ltac project :=
  cbn [outcome trace unread fst snd asked calls searched];
  rewrite ?asked_listing, ?calls_listing, ?searched_listing;
  cbn [asked calls searched].




Lemma not_truthy s : negb (truthy s) = true -> s = "".
Proof. now destruct s. Qed.

Lemma truthy_nonempty s : negb (truthy s) = false -> s <> "".
Proof. now destruct s. Qed.


(** ** The [for] loops of the power handlers *)

Lemma total_run m h i : total m -> m h i = (Ok tt, trace (m h i), i).
Proof.
  intros T. destruct (T h i) as [Ho Hu].
  destruct (m h i) as [[r d] i']; cbn in *. now subst.
Qed.

Lemma for_each_cons {A} (body : A -> M unit) x l h i :
  total (body x) ->
  for_each (x :: l) body h i
  = after (trace (body x h i))
      (for_each l body (h ++ trace (body x h i))%list i).
Proof.
  intros T. cbn [for_each]. rewrite bind_cont, (total_run _ h i T) at 1.
  reflexivity.
Qed.

Lemma for_each_total {A} (body : A -> M unit) l :
  (forall x, total (body x)) -> total (for_each l body).
Proof.
  intros T. induction l as [|x l IH]; intros h i; [now split|].
  rewrite for_each_cons by apply T.
  rewrite outcome_after, unread_after. apply IH.
Qed.

(** A property of traces that holds of the empty trace and is kept by
    concatenation holds of a loop as soon as it holds of each round. *)
Lemma for_each_trace_ind {A} (P : list event -> Prop) (body : A -> M unit) l :
  (forall x, total (body x)) ->
  P [] ->
  (forall a b, P a -> P b -> P (a ++ b)%list) ->
  (forall x h i, In x l -> P (trace (body x h i))) ->
  forall h i, P (trace (for_each l body h i)).
Proof.
  intros T P0 Papp. induction l as [|x l IH]; intros Pbody h i; [exact P0|].
  rewrite for_each_cons, trace_after by apply T.
  apply Papp; [apply Pbody; now left|].
  apply IH. intros y h' i' Hy. apply Pbody. now right.
Qed.

Lemma power_on_each_total si vm : total (power_on_each si vm).
Proof.
  intros h i. run_of (power_on_each si vm h i). unfold power_on_each. exec.
  all: now intros <-.
Qed.

Lemma power_off_each_total si vm : total (power_off_each si vm).
Proof.
  intros h i. run_of (power_off_each si vm h i). unfold power_off_each. exec.
  all: now intros <-.
Qed.

Lemma power_on_loop_run si l h i :
  for_each l (power_on_each si) h i
  = (Ok tt, trace (for_each l (power_each OpPowerOn si) h i), i).
Proof. apply total_run, for_each_total, power_on_each_total. Qed.

Lemma power_off_loop_run si l h i :
  for_each l (power_off_each si) h i
  = (Ok tt, trace (for_each l (power_each OpPowerOff si) h i), i).
Proof. apply total_run, for_each_total, power_off_each_total. Qed.

Lemma power_each_total k si vm : total (power_each k si vm).
Proof. destruct k; (apply power_on_each_total || apply power_off_each_total). Qed.

(** One round of a power loop: a skip line, or a call with what follows. *)
Lemma power_each_trace k si vm h i :
  k = OpPowerOn \/ k = OpPowerOff ->
  (powerState vm = desired_state k /\
   trace (power_each k si vm h i) = [Print (skip_message k vm)]) \/
  (powerState vm <> desired_state k /\
   exists line res rest,
     trace (power_each k si vm h i)
     = Print line :: Call vm (power_call k) res :: rest /\
     calls rest = [] /\ asked rest = [] /\ searched rest = [] /\
     match res with
     | Some e => rest = [Print (failure_report k (power_call k) vm e)]
     | None => reported k rest
     end).
Proof.
  intros [-> | ->];
    cbn [power_each desired_state power_call skip_message failure_report].
  - run_of (power_on_each si vm h i). unfold power_on_each. exec.
    all: intros <-; cbn [trace fst snd].
    + left. split; [now destruct (powerState vm)|reflexivity].
    + right. split; [now destruct (powerState vm)|].
      do 3 eexists. split; [reflexivity|]. cbn. auto.
    + right. split; [now destruct (powerState vm)|].
      do 3 eexists. split; [reflexivity|]. cbn. auto.
  - run_of (power_off_each si vm h i). unfold power_off_each. exec.
    all: intros <-; cbn [trace fst snd].
    + left. split; [now destruct (powerState vm)|reflexivity].
    + right. split; [now destruct (powerState vm)|].
      do 3 eexists. split; [reflexivity|]. cbn. auto.
    + right. split; [now destruct (powerState vm)|].
      do 3 eexists. split; [reflexivity|]. cbn. auto.
Qed.

Lemma reported_app k a b : reported k a -> reported k b -> reported k (a ++ b).
Proof.
  induction a as [|x a IH]; intros Ha Hb; [exact Hb|].
  destruct x as [| | | |vm op [e|]| |]; cbn in *; auto.
  destruct Ha as [Hnext Ha]. split; [|auto].
  destruct a as [|[] a]; cbn; auto; contradiction.
Qed.

Section PowerLoop.
Variable k : OperationKind.
Hypothesis power : k = OpPowerOn \/ k = OpPowerOff.
Variable si : Env.

Lemma power_loop_asked l h i : asked (trace (for_each l (power_each k si) h i)) = [].
Proof.
  apply for_each_trace_ind with (P := fun d => asked d = []);
    [apply power_each_total|reflexivity| |].
  - intros a b Ha Hb. now rewrite asked_app, Ha, Hb.
  - intros vm h' i' _.
    destruct (power_each_trace k si vm h' i' power)
      as [[_ ->]|[_ (line & res & rest & -> & _ & Hr & _)]]; cbn; auto.
Qed.

Lemma power_loop_searched l h i : searched (trace (for_each l (power_each k si) h i)) = [].
Proof.
  apply for_each_trace_ind with (P := fun d => searched d = []);
    [apply power_each_total|reflexivity| |].
  - intros a b Ha Hb. now rewrite searched_app, Ha, Hb.
  - intros vm h' i' _.
    destruct (power_each_trace k si vm h' i' power)
      as [[_ ->]|[_ (line & res & rest & -> & _ & _ & Hr & _)]]; cbn; auto.
Qed.

Lemma power_loop_reported l h i : reported k (trace (for_each l (power_each k si) h i)).
Proof.
  apply for_each_trace_ind with (P := reported k);
    [apply power_each_total|exact I|apply reported_app|].
  intros vm h' i' _.
  destruct (power_each_trace k si vm h' i' power)
    as [[_ ->]|[_ (line & [e|] & rest & -> & _ & _ & _ & Hr)]]; cbn; auto.
  subst rest. cbn. auto.
Qed.

(** The calls of the loop: one per VM that is not in the desired state,
    in the order of the list. *)
Lemma power_loop_calls l h i :
  calls (trace (for_each l (power_each k si) h i))
  = map (fun vm => (vm, power_call k))
      (filter (fun vm => negb (PowerState_eqb (powerState vm) (desired_state k)))
         l).
Proof.
  revert h. induction l as [|vm l IH]; intros h; [reflexivity|].
  rewrite for_each_cons, trace_after, calls_app
    by apply power_each_total.
  rewrite IH. cbn [filter].
  destruct (power_each_trace k si vm h i power)
    as [[Hs ->]|[Hs (line & res & rest & -> & Hc & _)]].
  - rewrite Hs. now destruct (desired_state k).
  - cbn [calls]. rewrite Hc.
    destruct (powerState vm), (desired_state k); cbn; congruence.
Qed.

End PowerLoop.

Ltac step_loop :=
  lazymatch goal with
  | |- ?X = _ -> _ =>
      match X with
      | context [for_each ?l (power_on_each ?si) ?h ?i] =>
          rewrite (power_on_loop_run si l h i)
      | context [for_each ?l (power_off_each ?si) ?h ?i] =>
          rewrite (power_off_loop_run si l h i)
      end
  end.

(** Run a handler to the end, on every path. *)
Ltac exec_handler := repeat first [ step | step_loop ].

Ltac project_loops :=
  rewrite ?(power_loop_asked OpPowerOn (or_introl eq_refl)),
    ?(power_loop_asked OpPowerOff (or_intror eq_refl)),
    ?(power_loop_searched OpPowerOn (or_introl eq_refl)),
    ?(power_loop_searched OpPowerOff (or_intror eq_refl)),
    ?(power_loop_calls OpPowerOn (or_introl eq_refl)),
    ?(power_loop_calls OpPowerOff (or_intror eq_refl)).

Ltac unfold_handlers :=
  unfold power_on_vm, power_off_vm, create_snapshot, delete_vm,
    reconfigure_vm, rename_vm.









(** ** The substring test *)

Lemma prefix_spec sub s : prefix sub s = true <-> exists post, s = sub ++ post.
Proof.
  revert s. induction sub as [|a sub IH]; intros s.
  - split; [intros _; now exists s | destruct s; reflexivity].
  - destruct s as [|b s]; cbn.
    + split; [discriminate | intros [post H]; discriminate H].
    + destruct (ascii_dec a b) as [->|Hab].
      * rewrite IH. split; intros [post H]; exists post; congruence.
      * split; [discriminate | intros [post H]; congruence].
Qed.

(** [contains sub s] holds exactly when [sub] occurs in [s]. *)
Lemma contains_spec sub s :
  contains sub s = true <-> exists pre post, s = pre ++ sub ++ post.
Proof.
  split.
  - induction s as [|c s IH]; cbn [contains]; intros H;
      apply orb_true_iff in H; destruct H as [H|H].
    + apply prefix_spec in H. destruct H as [post H]. now exists "", post.
    + discriminate H.
    + apply prefix_spec in H. destruct H as [post H]. now exists "", post.
    + destruct (IH H) as (pre & post & ->). now exists (String c pre), post.
  - intros (pre & post & ->). induction pre as [|c pre IH].
    + destruct (sub ++ post) eqn:E; cbn [append contains]; rewrite <- ?E;
        apply orb_true_iff; left; apply prefix_spec; now exists post.
    + cbn [append contains]. rewrite IH. apply orb_true_r.
Qed.




(** The bulk scenario of the specification: PowerOff of every VM, declined. *)
Example power_off_all_declined :
  handler OpPowerOff calm [] [""; "N"]
  = (Ok tt,
     [Print (nl ++ "=== Power Off VM(s) ===");
      Search [db01; web01; web02; app1];
      Print (nl ++ "VMs managed by vCenter:");
      Print "  - db01"; Print "  - web01"; Print "  - web02"; Print "  - app1";
      Input (nl ++ "Enter VM name to power off (leave empty for ALL): ") "";
      Input "Are you sure you want to power off ALL VMs? (Y/N): " "N";
      Print "Cancelled."],
     []).
Proof. reflexivity. Qed.

(** The deletion scenario of the specification: both confirmations given,
    the VM powered off: one [Destroy_Task] call and the success line. *)
Example delete_confirmed :
  calls (trace (delete_vm calm [] ["db01"; "YES"; "db01"]))
  = [(db01, Destroy_Task)] /\
  ends_with (trace (delete_vm calm [] ["db01"; "YES"; "db01"]))
    (Print (tick ++ " db01 has been deleted successfully!")).
Proof. split; [reflexivity|]. vm_compute. last_event. Qed.















Lemma append_empty_r s : s ++ "" = s.
Proof. induction s as [|c s IH]; cbn; congruence. Qed.

Lemma contains_middle pre sub post : contains sub (pre ++ sub ++ post) = true.
Proof. apply contains_spec. now exists pre, post. Qed.

Lemma contains_end pre sub : contains sub (pre ++ sub) = true.
Proof. apply contains_spec. exists pre, "". now rewrite append_empty_r. Qed.

Lemma append_is_assoc a b c : (a ++ b) ++ c = a ++ b ++ c.
Proof. induction a as [|x a IH]; cbn; congruence. Qed.

Lemma contains_end_after a b c sub : contains sub (a ++ b ++ c ++ sub) = true.
Proof. rewrite <- !append_is_assoc. apply contains_end. Qed.

Lemma reported_prints {X} k (f : X -> string) l :
  reported k (map (fun x => Print (f x)) l).
Proof. induction l; cbn; auto. Qed.

(** What [reported] says of a call that raised, wherever it is. *)
Lemma reported_spec k d pre vm op e post :
  reported k d ->
  d = (pre ++ Call vm op (Some e) :: post)%list ->
  exists post', post = Print (failure_report k op vm e) :: post'.
Proof.
  revert d. induction pre as [|x pre IH]; intros d Hr ->.
  - cbn in Hr. destruct Hr as [Hr _].
    destruct post as [|[] post]; try contradiction. subst. now eexists.
  - apply (IH (pre ++ Call vm op (Some e) :: post)%list); [|reflexivity].
    destruct x as [| | | |vm' op' [e'|]| |]; cbn in Hr; tauto.
Qed.

Lemma calls_nonempty pre vm op res post :
  calls (pre ++ Call vm op res :: post) <> [].
Proof. rewrite calls_app. cbn. now destruct (calls pre). Qed.

(** Every handler ends normally or at the end of the input, in the latter
    case before any call; and every call that raised is reported. *)
Lemma handler_faults (k : OperationKind) (si : Env) (h : list event)
    (stdin : list string) :
  (outcome (handler k si h stdin) = Ok tt \/
   outcome (handler k si h stdin) = Raise EOFError /\
   calls (trace (handler k si h stdin)) = []) /\
  reported k (trace (handler k si h stdin)).
Proof.
  run_of (handler k si h stdin).
  destruct k; cbn [handler]; unfold_handlers; exec_handler.
  all: intros <-; project; project_loops.
  all: split; [solve [left; reflexivity | right; split; reflexivity]|].
  all: cbn [reported]; apply reported_app; [apply reported_prints|].
  all: cbn [reported failure_report str_exn]; auto.
  - apply (power_loop_reported OpPowerOn (or_introl eq_refl)).
  - apply (power_loop_reported OpPowerOn (or_introl eq_refl)).
  - apply (power_loop_reported OpPowerOff (or_intror eq_refl)).
  - apply (power_loop_reported OpPowerOff (or_intror eq_refl)).
Qed.

(** C8, as the code has it. Whatever the operation, an exception raised by
    a call on a VM never leaves the handler: the handler returns normally,
    and the line printed right after the call is the failure report of the
    operation, which carries the text of the exception; it carries the name
    of the VM for PowerOn and PowerOff. *)
Theorem task_failures_are_reported (k : OperationKind) (si : Env)
    (h : list event) (stdin : list string) :
  (forall detail, outcome (handler k si h stdin) <> Raise (Fault detail)) /\
  (forall pre vm op e post,
      trace (handler k si h stdin) = (pre ++ Call vm op (Some e) :: post)%list ->
      outcome (handler k si h stdin) = Ok tt /\
      exists post', post = Print (failure_report k op vm e) :: post') /\
  (forall vm op e, contains e (failure_report k op vm e) = true) /\
  (k = OpPowerOn \/ k = OpPowerOff ->
   forall vm op e, contains (name vm) (failure_report k op vm e) = true).
Proof.
  destruct (handler_faults k si h stdin) as [Hout Hrep].
  split; [|split; [|split]].
  - intros detail. destruct Hout as [-> | [-> _]]; discriminate.
  - intros pre vm op e post E. split.
    + destruct Hout as [Hok | [_ Hnone]]; [exact Hok|].
      rewrite E in Hnone. now apply calls_nonempty in Hnone.
    + exact (reported_spec k _ pre vm op e post Hrep E).
  - intros vm op e. destruct k.
    + exact (contains_end_after "Failed to power on " (name vm) ": " e).
    + exact (contains_end_after "Failed to power off " (name vm) ": " e).
    + exact (contains_end "Failed to create snapshot: " e).
    + destruct op;
        first [ exact (contains_end "Failed to power off: " e)
              | exact (contains_end "Failed to delete VM: " e) ].
    + exact (contains_end "Failed to reconfigure VM: " e).
    + exact (contains_end "Failed to rename VM: " e).
  - intros [-> | ->] vm op e.
    + exact (contains_middle "Failed to power on " (name vm) (": " ++ e)).
    + exact (contains_middle "Failed to power off " (name vm) (": " ++ e)).
Qed.

(** C8 as stated fails: the report of a failed deletion does not name the
    VM. *)
Lemma delete_failure_report_lacks_vm_name :
  skipn 12 (trace (delete_vm faulty [] ["db01"; "YES"; "db01"]))
  = [Call db01 Destroy_Task (Some "boom"); Print "Failed to delete VM: boom"] /\
  contains (name db01) "Failed to delete VM: boom" = false.
Proof. split; reflexivity. Qed.




(** ** The menu loops *)

Ltac normalise_run :=
  rewrite ?after_after; cbn [app].

(** A number that is no option of the main menu: the loop prints that the
    option is invalid and goes round again. *)
Lemma main_loop_invalid_number fuel si host h o z rest :
  int o = Some z ->
  (z < 0 \/ 4 < z)%Z ->
  exists h',
    main_loop (S fuel) si host h (o :: rest)
    = after (main_menu ++ [Input "Enter your option: " o;
                           Print "Invalid option. Please try again."])%list
        (main_loop fuel si host h' rest).
Proof.
  intros Hint Hz. run_of (main_loop (S fuel) si host h (o :: rest)).
  cbn [main_loop]. exec.
  all: try discriminate Hint.
  all: injection Hint as ->.
  all: repeat match goal with
              | H : (_ =? _)%Z = true |- _ => apply Z.eqb_eq in H
              end;
    try lia.
  intros <-. eexists. normalise_run. reflexivity.
Qed.

(** A line that is not an integer: [int] raises and nothing catches it. *)
Lemma main_loop_not_a_number fuel si host h o rest :
  int o = None ->
  main_loop (S fuel) si host h (o :: rest)
  = (Raise (ValueError ("invalid literal for int() with base 10: '" ++ o ++ "'")),
     (main_menu ++ [Input "Enter your option: " o])%list, rest).
Proof.
  intros Hint. run_of (main_loop (S fuel) si host h (o :: rest)).
  cbn [main_loop]. exec.
  all: try discriminate Hint.
  now intros <-.
Qed.

(** The same two cases in the VM Actions menu: a number that is no option
    runs no handler, prints the menu and asks again; a line that is not an
    integer raises. *)
Ltac exec_vm_actions :=
  cbn [vm_actions]; unfold vmmenu;
  repeat first
    [ step
    | match goal with
      | |- context [if (?a =? ?b)%Z then _ else _] =>
          destruct (a =? b)%Z eqn:?
      end ];
  repeat match goal with
         | H : (_ =? _)%Z = true |- _ => apply Z.eqb_eq in H
         end;
  try lia.

Lemma vm_actions_invalid_number fuel si h z o z' rest :
  (z < 0 \/ 6 < z)%Z ->
  int o = Some z' ->
  exists h',
    vm_actions (S fuel) si z h (o :: rest)
    = after (vm_menu ++ [Input "Enter your option: " o])%list
        (vm_actions fuel si z' h' rest).
Proof.
  intros Hz Hint. run_of (vm_actions (S fuel) si z h (o :: rest)).
  exec_vm_actions.
  all: try discriminate Hint.
  injection Hint as ->. intros <-. eexists. normalise_run. reflexivity.
Qed.

Lemma vm_actions_not_a_number fuel si h z o rest :
  (z < 0 \/ 6 < z)%Z ->
  int o = None ->
  vm_actions (S fuel) si z h (o :: rest)
  = (Raise (ValueError ("invalid literal for int() with base 10: '" ++ o ++ "'")),
     (vm_menu ++ [Input "Enter your option: " o])%list, rest).
Proof.
  intros Hz Hint. run_of (vm_actions (S fuel) si z h (o :: rest)).
  exec_vm_actions.
  all: try discriminate Hint.
  now intros <-.
Qed.

(** C9 fails on the code: a line that is not an integer, typed at the main
    menu, ends the program with an uncaught [ValueError]; so does the empty
    line. *)
Theorem main_crashes_on_non_numeric_choice (fuel : nat) :
  outcome (main (S fuel) calm "vcenter" [] ["abc"])
  = Raise (ValueError "invalid literal for int() with base 10: 'abc'") /\
  outcome (main (S fuel) calm "vcenter" [] [""])
  = Raise (ValueError "invalid literal for int() with base 10: ''") /\
  outcome (main (S fuel) calm "vcenter" [] ["4"; "one"])
  = Raise (ValueError "invalid literal for int() with base 10: 'one'").
Proof. repeat split; reflexivity. Qed.


(** ** Enough fuel *)

(** No handler reads more lines than there are. *)
Lemma handler_reads (k : OperationKind) (si : Env) (h : list event)
    (stdin : list string) :
  length (unread (handler k si h stdin)) <= length stdin.
Proof.
  run_of (handler k si h stdin).
  destruct k; cbn [handler]; unfold_handlers; exec_handler.
  all: intros <-; cbn [unread snd length]; lia.
Qed.

Lemma handler_has_fuel (k : OperationKind) (si : Env) (h : list event)
    (stdin : list string) :
  outcome (handler k si h stdin) <> OutOfFuel.
Proof.
  destruct (handler_faults k si h stdin) as [[-> | [-> _]] _]; discriminate.
Qed.

Lemma vmmenu_run h i : vmmenu h i = (Ok tt, vm_menu, i).
Proof. reflexivity. Qed.

(** With more fuel than lines to read, the loop of the VM Actions menu
    comes to an end. *)
Lemma vm_actions_has_fuel fuel si z h i :
  length i < fuel ->
  outcome (vm_actions fuel si z h i) <> OutOfFuel /\
  length (unread (vm_actions fuel si z h i)) <= length i.
Proof.
  revert z h i. induction fuel as [|fuel IH]; intros z h i Hlen; [lia|].
  cbn [vm_actions]. destruct (z =? 0)%Z; [split; [discriminate | reflexivity]|].
  match goal with
  | |- context [bind ?m _ _ _] => set (chosen := m)
  end.
  assert (Hchosen : outcome (chosen h i) <> OutOfFuel /\
                    length (unread (chosen h i)) <= length i).
  { subst chosen.
    repeat match goal with
           | |- context [if ?c then _ else _] => destruct c
           end;
      try (split; [discriminate | reflexivity]).
    - split; [apply (handler_has_fuel OpPowerOn) | apply (handler_reads OpPowerOn)].
    - split; [apply (handler_has_fuel OpPowerOff) | apply (handler_reads OpPowerOff)].
    - split; [apply (handler_has_fuel OpSnapshot) | apply (handler_reads OpSnapshot)].
    - split; [apply (handler_has_fuel OpDelete) | apply (handler_reads OpDelete)].
    - split; [apply (handler_has_fuel OpReconfigure) | apply (handler_reads OpReconfigure)].
    - split; [apply (handler_has_fuel OpRename) | apply (handler_reads OpRename)]. }
  rewrite bind_cont.
  destruct (chosen h i) as [[[[]|e| |] d] i1]; cbn [outcome unread fst snd cont] in *;
    try (split; [discriminate | lia]); [|tauto].
  rewrite outcome_after, unread_after, bind_cont, vmmenu_run. cbn [cont].
  rewrite outcome_after, unread_after.
  destruct i1 as [|o i2]; [split; [discriminate | cbn; lia]|].
  rewrite bind_input, outcome_after, unread_after, bind_int_of.
  destruct (int o); [|split; [discriminate | cbn in *; lia]].
  cbn [length] in *.
  destruct (IH z0 (((h ++ d) ++ vm_menu) ++ [Input "Enter your option: " o])%list i2)
    as [Ho Hu]; [lia|].
  split; [exact Ho | lia].
Qed.

Lemma run_prints {X} (f : X -> string) l h i :
  for_each l (fun x => print (f x)) h i
  = (Ok tt, map (fun x => Print (f x)) l, i).
Proof.
  revert h. induction l as [|x l IH]; intros h; [reflexivity|].
  cbn [for_each map]. rewrite bind_print, IH. reflexivity.
Qed.

Lemma display_vm_info_total si vms : total (display_vm_info si vms).
Proof.
  intros h i. unfold display_vm_info. rewrite run_def.
  destruct vms as [|vm vms]; [split; reflexivity|].
  cbn [is_empty]. rewrite bind_when_false, !bind_print, run_prints.
  split; reflexivity.
Qed.

Lemma get_session_info_total si host : total (get_session_info si host).
Proof. intros h i. split; reflexivity. Qed.

Lemma bind_total {B} (m : M unit) (k : unit -> M B) h i :
  total m ->
  bind m k h i = after (trace (m h i)) (k tt (h ++ trace (m h i))%list i).
Proof. intros T. rewrite bind_cont, (total_run m h i T) at 1. reflexivity. Qed.

(** With more fuel than lines to read, the main loop comes to an end: by
    the exit option, or by an exception. *)
Lemma main_loop_has_fuel fuel si host h i :
  length i < fuel ->
  outcome (main_loop fuel si host h i) <> OutOfFuel.
Proof.
  revert h i. induction fuel as [|fuel IH]; intros h i Hlen; [lia|].
  cbn [main_loop]. rewrite !bind_print, !outcome_after.
  destruct i as [|o i1]; [discriminate|]. cbn [length] in Hlen.
  rewrite bind_input, outcome_after, bind_int_of.
  destruct (int o) as [z|]; [|discriminate].
  repeat match goal with
         | |- context [if (z =? ?n)%Z then _ else _] => destruct (z =? n)%Z
         end.
  - rewrite !bind_print, !outcome_after. apply IH. lia.
  - rewrite bind_print, outcome_after.
    rewrite bind_total by apply get_session_info_total.
    rewrite outcome_after. apply IH. lia.
  - rewrite bind_print, outcome_after.
    destruct i1 as [|f i2]; [discriminate|]. cbn [length] in Hlen.
    rewrite bind_input, outcome_after.
    destruct (truthy (strip f)); cbv zeta;
      unfold search_vms at 1; rewrite bind_cont; cbn [cont];
      rewrite outcome_after, bind_total by apply display_vm_info_total;
      rewrite outcome_after; apply IH; lia.
  - rewrite bind_print, outcome_after, bind_cont, vmmenu_run. cbn [cont].
    rewrite outcome_after.
    destruct i1 as [|o' i2]; [discriminate|]. cbn [length] in Hlen.
    rewrite bind_input, outcome_after, bind_int_of.
    destruct (int o') as [z'|]; [|discriminate].
    rewrite bind_cont.
    match goal with
    | |- context [vm_actions fuel si z' ?h' i2] =>
        destruct (vm_actions_has_fuel fuel si z' h' i2) as [Ho Hu]; [lia|];
        destruct (vm_actions fuel si z' h' i2) as [[[[]|e| |] d] i3]
    end; cbn [outcome unread fst snd cont] in *; try discriminate; [|tauto].
    rewrite outcome_after. apply IH. lia.
  - discriminate.
  - rewrite bind_print, outcome_after. apply IH. lia.
Qed.

(** [main] comes to an end once given more fuel than there are lines on
    standard input. *)
Theorem main_has_fuel si host h stdin :
  outcome (main (S (length stdin)) si host h stdin) <> OutOfFuel.
Proof.
  unfold main. rewrite run_def, bind_print, finish_after, outcome_after.
  rewrite bind_total by apply get_session_info_total.
  rewrite finish_after, outcome_after.
  match goal with
  | |- context [main_loop ?f si host ?h' stdin] =>
      pose proof (main_loop_has_fuel f si host h' stdin (Nat.lt_succ_diag_r _)) as H;
      destruct (main_loop f si host h' stdin) as [[[[]|e| |] d] i']
  end; cbn in *; congruence.
Qed.

(** A deletion that first powers the VM off: the two calls, in order. *)
Example delete_after_power_off :
  calls (trace (delete_vm calm [] ["web01"; "yes"; "web01"; "y"]))
  = [(web01, PowerOff); (web01, Destroy_Task)].
Proof. reflexivity. Qed.
